(** * vppcfg: the command-line driver [main] of vppcfg/vppcfg.py

    The driver parses a command ([check], [dump], [plan], [apply]), loads
    and validates a YAML document, builds a [Reconciler], obtains a
    dataplane snapshot, runs the precondition checks and the three
    planning phases, and leaves through [sys.exit].

    The Validator, the Dumper and the Reconciler are other modules of the
    package: [main] only calls them and branches on the truth value they
    return.  They are modelled as the environment of the program: [main]
    is a tree of calls, and a [world] answers each call.  A run yields the
    trace of the calls made, in order, and the way the process ended. *)

From Stdlib Require Import ZArith List String Bool Lia.
Import ListNotations.

#[local] Open Scope string_scope.
#[local] Open Scope list_scope.

(** ** The parsed command line (argparse's Namespace) *)

(** Every sub-parser declares its own arguments (lines 66-198), and the
    Namespace returned by [parse_args] carries only the attributes of the
    top-level parser and of the sub-parser that was selected.  One
    constructor per sub-parser, with the attributes it declares:
    [--novpp] and [--output] are not arguments of [apply]. *)
Inductive subcommand : Type :=
| cmd_check (schema : option string) (config : string)
| cmd_dump (outfile : string) (vpp_json_dir vpp_api_socket : option string)
| cmd_plan (schema : option string) (config : string) (novpp : bool)
           (outfile : string) (vpp_json_dir vpp_api_socket : option string)
| cmd_apply (schema : option string) (config : string)
            (vpp_json_dir vpp_api_socket : option string).

Record Namespace : Type := mkNamespace {
  debug : bool;
  quiet : bool;
  force : bool;
  command : option subcommand   (* None: no command on the command line *)
}.

(** Attribute lookup: [None] when the Namespace has no such attribute
    (Python raises AttributeError on [args.name], and ["name" in args] is
    False). *)
Definition attr_schema (c : subcommand) : option (option string) :=
  match c with
  | cmd_check s _ | cmd_plan s _ _ _ _ _ | cmd_apply s _ _ _ => Some s
  | cmd_dump _ _ _ => None
  end.

Definition attr_config (c : subcommand) : option string :=
  match c with
  | cmd_check _ p | cmd_plan _ p _ _ _ _ | cmd_apply _ p _ _ => Some p
  | cmd_dump _ _ _ => None
  end.

Definition attr_novpp (c : subcommand) : option bool :=
  match c with
  | cmd_plan _ _ n _ _ _ => Some n
  | _ => None
  end.

Definition attr_outfile (c : subcommand) : option string :=
  match c with
  | cmd_dump o _ _ | cmd_plan _ _ _ o _ _ => Some o
  | _ => None
  end.

Definition attr_vpp_json_dir (c : subcommand) : option (option string) :=
  match c with
  | cmd_dump _ j _ | cmd_plan _ _ _ _ j _ | cmd_apply _ _ j _ => Some j
  | cmd_check _ _ => None
  end.

Definition attr_vpp_api_socket (c : subcommand) : option (option string) :=
  match c with
  | cmd_dump _ _ a | cmd_plan _ _ _ _ _ a | cmd_apply _ _ _ a => Some a
  | cmd_check _ _ => None
  end.

(** [args.command == "dump"] and the like. *)
Definition is_dump (c : subcommand) : bool :=
  match c with cmd_dump _ _ _ => true | _ => false end.
Definition is_check (c : subcommand) : bool :=
  match c with cmd_check _ _ => true | _ => false end.
Definition is_plan (c : subcommand) : bool :=
  match c with cmd_plan _ _ _ _ _ _ => true | _ => false end.
Definition is_apply (c : subcommand) : bool :=
  match c with cmd_apply _ _ _ _ => true | _ => false end.

(** The keyword arguments handed to Dumper and Reconciler: a dict filled
    in source order, kept as an association list. *)
Definition kwargs : Type := list (string * string).

Inductive level : Type := DEBUG | INFO | WARNING | ERROR.

(** An exception that leaves [main] uncaught (the interpreter prints a
    traceback and the process ends with status 1). *)
Inductive exn : Type :=
| AttributeError (name : string)
| YAMLError (what : string).

(** Why [yaml.load] did not return a document: reading the opened file
    raised OSError, or the text does not parse (any other exception). *)
Inductive load_error : Type :=
| read_failed (err : string)
| parse_failed (what : string).

(** How a piece of program ends: it returns a value, or the process
    ends there. *)
Inductive outcome (A : Type) : Type :=
| Returned (a : A)
| Exited (code : Z)        (* sys.exit(code) *)
| Raised (e : exn).

Arguments Returned {A} a.
Arguments Exited {A} code.
Arguments Raised {A} e.

(** The status the operating system reports for [sys.exit(code)]: the low
    eight bits of the code, so [sys.exit(-10)] is seen as 246. *)
Definition exit_status (code : Z) : Z := Z.land code 255.

Section Driver.

(** The YAML document as [yaml.load] returns it.  [main] never looks
    inside: it hands the document to the Validator and the Reconciler. *)
Variable cfg : Type.

(** ** Calls to the collaborators *)

Inductive message : Type :=
| text (s : string)
| text_cfg (s : string) (c : cfg).     (* f"Config: {cfg}" *)

(** Calls whose result [main] ignores.  [basicConfig] is given a format
    string as well, the same in every run. *)
Inductive action : Type :=
| print_help
| print (s : string)
| basicConfig (lvl : level)
| logging (lvl : level) (m : message)
| Dumper (kw : kwargs)
| dumper_write (outfile : string)
| Validator (schema : option string)
| Reconciler (c : cfg) (kw : kwargs)
| reconciler_write (outfile : string) (emit_ok : bool).

(** Calls whose result [main] tests with [if not ...]: only the truth
    value of what they return matters. *)
Inductive query : Type :=
| dumper_readconfig
| valid_config (c : cfg)
| mockconfig (c : cfg)
| readconfig
| phys_exist_in_vpp
| phys_exist_in_config
| lcps_exist_with_lcp_enabled
| prune
| create
| sync.

(** One entry of a trace: a call together with what it returned. *)
Inductive event : Type :=
| EDo (a : action)
| EAsk (q : query) (r : bool)
| EOpen (path : string) (r : string + string)   (* inl: OSError; inr: text *)
| ELoad (doc : string) (r : load_error + cfg).  (* inl: yaml.load raised *)

(** ** Programs: trees of calls *)

Inductive prog (A : Type) : Type :=
| Ret (a : A)
| Exit (code : Z)
| Raise (e : exn)
| Do (a : action) (k : prog A)
| Ask (q : query) (k : bool -> prog A)
| OpenFile (path : string) (k : string + string -> prog A)
| YamlLoad (doc : string) (k : load_error + cfg -> prog A).

Arguments Ret {A} a.
Arguments Exit {A} code.
Arguments Raise {A} e.
Arguments Do {A} a k.
Arguments Ask {A} q k.
Arguments OpenFile {A} path k.
Arguments YamlLoad {A} doc k.

(** Sequencing: [sys.exit] and an uncaught exception skip what follows. *)
Fixpoint bind {A B : Type} (p : prog A) (f : A -> prog B) : prog B :=
  match p with
  | Ret a => f a
  | Exit code => Exit code
  | Raise e => Raise e
  | Do a k => Do a (bind k f)
  | Ask q k => Ask q (fun r => bind (k r) f)
  | OpenFile path k => OpenFile path (fun r => bind (k r) f)
  | YamlLoad doc k => YamlLoad doc (fun r => bind (k r) f)
  end.

Definition do_ (a : action) : prog unit := Do a (Ret tt).
Definition ask (q : query) : prog bool := Ask q (fun r => Ret r).
Definition open_ (path : string) : prog (string + string) :=
  OpenFile path (fun r => Ret r).
Definition load (doc : string) : prog (load_error + cfg) :=
  YamlLoad doc (fun r => Ret r).
Definition sys_exit (code : Z) : prog unit := Exit code.
Definition when (b : bool) (p : prog unit) : prog unit :=
  if b then p else Ret tt.

(** [args.name]: AttributeError when the Namespace has no such attribute. *)
Definition getattr {A : Type} (name : string) (o : option A) : prog A :=
  match o with
  | Some a => Ret a
  | None => Raise (AttributeError name)
  end.

Definition log (lvl : level) (s : string) : prog unit :=
  do_ (logging lvl (text s)).

(** ** The environment *)

(** A world answers each call, knowing the calls made so far: the
    collaborators are stateful objects, and nothing is assumed of them
    beyond returning. *)
Record world : Type := mkWorld {
  answer : list event -> query -> bool;
  open_file : list event -> string -> string + string;
  yaml_load : list event -> string -> load_error + cfg
}.

(** [run w h p]: run [p] in world [w] after the calls [h]; the result is
    the whole trace, oldest call first, and the outcome. *)
Fixpoint run {A : Type} (w : world) (h : list event) (p : prog A)
  : list event * outcome A :=
  match p with
  | Ret a => (h, Returned a)
  | Exit code => (h, Exited code)
  | Raise e => (h, Raised e)
  | Do a k => run w (h ++ [EDo a]) k
  | Ask q k =>
      let r := answer w h q in run w (h ++ [EAsk q r]) (k r)
  | OpenFile path k =>
      let r := open_file w h path in run w (h ++ [EOpen path r]) (k r)
  | YamlLoad doc k =>
      let r := yaml_load w h doc in run w (h ++ [ELoad doc r]) (k r)
  end.

(** ** The program *)

Declare Scope prog_scope.
Delimit Scope prog_scope with prog.
Notation "x <- p ;; q" := (bind p (fun x => q))
  (at level 61, p at next level, right associativity) : prog_scope.
Notation "p ;; q" := (bind p (fun _ => q))
  (at level 61, right associativity) : prog_scope.
#[local] Open Scope prog_scope.

Definition newline : string := String (Ascii.ascii_of_nat 10) EmptyString.

(** Lines 215-219: [opt_kwargs], filled from the attributes that are in
    the Namespace and not None. *)
Definition opt_kwargs_of (c : subcommand) : kwargs :=
  let opt_kwargs := [] in
  let opt_kwargs :=
    match attr_vpp_json_dir c with
    | Some (Some d) => opt_kwargs ++ [("vpp_json_dir", d)]
    | _ => opt_kwargs
    end in
  let opt_kwargs :=
    match attr_vpp_api_socket c with
    | Some (Some a) => opt_kwargs ++ [("vpp_api_socket", a)]
    | _ => opt_kwargs
    end in
  opt_kwargs.

(** Lines 229-236: open the configuration file and parse it.  The
    [except OSError] clause covers the whole [with] block: an OSError
    raised by [open] or while [yaml.load] reads the file is logged and
    ends in [sys.exit(-1)]; any other exception of [yaml.load] leaves
    [main]. *)
Definition read_config (config : string) : prog cfg :=
  let except_OSError (err : string) : prog cfg :=
    log ERROR ("Couldn't read config from " ++ config ++ ": " ++ err) ;;
    Exit (-1) in
  r <- open_ config ;;
  match r with
  | inl err => except_OSError err
  | inr doc =>
      log INFO ("Loading configfile " ++ config) ;;
      r <- load doc ;;
      match r with
      | inl (read_failed err) => except_OSError err
      | inl (parse_failed what) => Raise (YAMLError what)
      | inr c => do_ (logging DEBUG (text_cfg "Config: " c)) ;; Ret c
      end
  end.

(** Lines 201-301: [main] from the point where [parser.parse_args()]
    (line 200) has returned the Namespace [args].  The two ways
    [parse_args] itself ends the process are in [process] below. *)
Definition main (args : Namespace) : prog unit :=
  match command args with
  | None =>
      do_ print_help ;;
      do_ (print (newline ++
                  "Please see vppcfg <command> -h   for per-command arguments")) ;;
      sys_exit 0
  | Some c =>
      let level := INFO in
      let level := if debug args then DEBUG else level in
      let level := if quiet args then WARNING else level in
      do_ (basicConfig level) ;;

      let opt_kwargs := opt_kwargs_of c in

      when (is_dump c) (
        do_ (Dumper opt_kwargs) ;;
        ok <- ask dumper_readconfig ;;
        when (negb ok) (
          log ERROR "Could not retrieve config from VPP" ;;
          sys_exit (-7)) ;;
        outfile <- getattr "outfile" (attr_outfile c) ;;
        do_ (dumper_write outfile) ;;
        sys_exit 0) ;;

      config <- getattr "config" (attr_config c) ;;
      cfg_ <- read_config config ;;

      schema <- getattr "schema" (attr_schema c) ;;
      do_ (Validator schema) ;;
      ok <- ask (valid_config cfg_) ;;
      when (negb ok) (
        log ERROR "Configuration is not valid, bailing" ;;
        sys_exit (-2)) ;;
      log INFO "Configuration is valid" ;;
      when (is_check c) (sys_exit 0) ;;

      do_ (Reconciler cfg_ opt_kwargs) ;;
      novpp <- getattr "novpp" (attr_novpp c) ;;
      (if novpp then
         ok <- ask (mockconfig cfg_) ;;
         when (negb ok) (sys_exit (-7))
       else
         ok <- ask readconfig ;;
         when (negb ok) (sys_exit (-3)) ;;

         ok <- ask phys_exist_in_vpp ;;
         when (negb ok) (
           log ERROR "Not all PHYs in the config exist in VPP" ;;
           sys_exit (-4)) ;;

         ok <- ask phys_exist_in_config ;;
         when (negb ok) (
           log ERROR "Not all PHYs in VPP exist in the config" ;;
           sys_exit (-5)) ;;

         ok <- ask lcps_exist_with_lcp_enabled ;;
         when (negb ok) (
           log ERROR
             "Linux Control Plane is needed, but linux-cp API is not available" ;;
           sys_exit (-6))) ;;

      let failed := false in
      ok <- ask prune ;;
      failed <- (if negb ok then
                   when (negb (force args)) (
                     log ERROR "Planning prune failure" ;;
                     sys_exit (-10)) ;;
                   log WARNING "Planning prune failure, continuing due to --force" ;;
                   Ret true
                 else Ret failed) ;;

      ok <- ask create ;;
      failed <- (if negb ok then
                   when (negb (force args)) (
                     log ERROR "Planning create failure" ;;
                     sys_exit (-20)) ;;
                   log WARNING "Planning create failure, continuing due to --force" ;;
                   Ret true
                 else Ret failed) ;;

      ok <- ask sync ;;
      failed <- (if negb ok then
                   when (negb (force args)) (
                     log ERROR "Planning sync failure" ;;
                     sys_exit (-30)) ;;
                   log WARNING "Planning sync failure, continuing due to --force" ;;
                   Ret true
                 else Ret failed) ;;

      when (is_plan c) (
        outfile <- getattr "outfile" (attr_outfile c) ;;
        do_ (reconciler_write outfile (negb failed))) ;;

      when failed (
        log ERROR "Planning failed" ;;
        sys_exit (-40)) ;;

      log INFO "Planning succeeded" ;;
      when (is_plan c) (sys_exit 0) ;;

      sys_exit 0
  end.

(** A run of the command [args] in the world [w]. *)
Definition trace_of (w : world) (args : Namespace) : list event :=
  fst (run w [] (main args)).
Definition outcome_of (w : world) (args : Namespace) : outcome unit :=
  snd (run w [] (main args)).

End Driver.

Arguments text {cfg} s.
Arguments text_cfg {cfg} s c.
Arguments print_help {cfg}.
Arguments print {cfg} s.
Arguments basicConfig {cfg} lvl.
Arguments logging {cfg} lvl m.
Arguments Dumper {cfg} kw.
Arguments dumper_write {cfg} outfile.
Arguments Validator {cfg} schema.
Arguments Reconciler {cfg} c kw.
Arguments reconciler_write {cfg} outfile emit_ok.
Arguments dumper_readconfig {cfg}.
Arguments valid_config {cfg} c.
Arguments mockconfig {cfg} c.
Arguments readconfig {cfg}.
Arguments phys_exist_in_vpp {cfg}.
Arguments phys_exist_in_config {cfg}.
Arguments lcps_exist_with_lcp_enabled {cfg}.
Arguments prune {cfg}.
Arguments create {cfg}.
Arguments sync {cfg}.
Arguments EDo {cfg} a.
Arguments EAsk {cfg} q r.
Arguments EOpen {cfg} path r.
Arguments ELoad {cfg} doc r.
Arguments Ret {cfg A} a.
Arguments Exit {cfg A} code.
Arguments Raise {cfg A} e.
Arguments Do {cfg A} a k.
Arguments Ask {cfg A} q k.
Arguments OpenFile {cfg A} path k.
Arguments YamlLoad {cfg A} doc k.
Arguments bind {cfg A B} p f.
Arguments mkWorld {cfg} answer open_file yaml_load.
Arguments answer {cfg} w h q.
Arguments open_file {cfg} w h path.
Arguments yaml_load {cfg} w h doc.
Arguments run {cfg A} w h p.
Arguments main {cfg} args.
Arguments trace_of {cfg} w args.
Arguments outcome_of {cfg} w args.

(** ** What a trace shows *)

(** The three planning phases and the three precondition checks, with the
    Reconciler method each one is. *)
Inductive phase : Type := Prune | Create | Sync.

Inductive precondition : Type :=
| PhysExistInVpp
| PhysExistInConfig
| LcpsExistWithLcpEnabled.

Definition phase_of {cfg} (q : query cfg) : option phase :=
  match q with
  | prune => Some Prune
  | create => Some Create
  | sync => Some Sync
  | _ => None
  end.

Definition precondition_of {cfg} (q : query cfg) : option precondition :=
  match q with
  | phys_exist_in_vpp => Some PhysExistInVpp
  | phys_exist_in_config => Some PhysExistInConfig
  | lcps_exist_with_lcp_enabled => Some LcpsExistWithLcpEnabled
  | _ => None
  end.

(** The tested calls of a trace with their results, in order. *)
Fixpoint asks {cfg} (tr : list (event cfg)) : list (query cfg * bool) :=
  match tr with
  | [] => []
  | EAsk q r :: tr' => (q, r) :: asks tr'
  | _ :: tr' => asks tr'
  end.

(** The phases invoked, in order, with what each returned. *)
Fixpoint phase_results {cfg} (tr : list (event cfg)) : list (phase * bool) :=
  match tr with
  | [] => []
  | EAsk q r :: tr' =>
      match phase_of q with
      | Some p => (p, r) :: phase_results tr'
      | None => phase_results tr'
      end
  | _ :: tr' => phase_results tr'
  end.

Definition phases_invoked {cfg} (tr : list (event cfg)) : list phase :=
  map fst (phase_results tr).

(** The precondition checks invoked, in order, with what each returned. *)
Fixpoint precondition_results {cfg} (tr : list (event cfg))
  : list (precondition * bool) :=
  match tr with
  | [] => []
  | EAsk q r :: tr' =>
      match precondition_of q with
      | Some p => (p, r) :: precondition_results tr'
      | None => precondition_results tr'
      end
  | _ :: tr' => precondition_results tr'
  end.

(** The last tested call of a trace. *)
Definition last_ask {cfg} (tr : list (event cfg)) : option (query cfg * bool) :=
  last (map Some (asks tr)) None.

(** Calls on the Reconciler: its construction, its dataplane client
    ([reconciler.vpp]), the checks, the phases and the plan writer. *)
Definition on_reconciler {cfg} (e : event cfg) : bool :=
  match e with
  | EDo (Reconciler _ _) | EDo (reconciler_write _ _) => true
  | EAsk (mockconfig _) _ | EAsk readconfig _ => true
  | EAsk phys_exist_in_vpp _ | EAsk phys_exist_in_config _
  | EAsk lcps_exist_with_lcp_enabled _ => true
  | EAsk prune _ | EAsk create _ | EAsk sync _ => true
  | _ => false
  end.

(** Calls that contact the dataplane or stand in for it. *)
Definition on_dataplane {cfg} (e : event cfg) : bool :=
  match e with
  | EDo (Dumper _) | EDo (dumper_write _) | EAsk dumper_readconfig _ => true
  | EAsk (mockconfig _) _ | EAsk readconfig _ => true
  | _ => false
  end.

(** Calls that touch the configuration document: opening and parsing the
    file, and validating. *)
Definition on_document {cfg} (e : event cfg) : bool :=
  match e with
  | EOpen _ _ | ELoad _ _ => true
  | EDo (Validator _) | EAsk (valid_config _) _ => true
  | _ => false
  end.

Definition is_logging {cfg} (e : event cfg) : bool :=
  match e with
  | EDo (logging _ _) => true
  | _ => false
  end.

(** A trace without its logging calls. *)
Definition calls {cfg} (tr : list (event cfg)) : list (event cfg) :=
  filter (fun e => negb (is_logging e)) tr.

Definition none_of {cfg} (f : event cfg -> bool) (tr : list (event cfg)) : bool :=
  forallb (fun e => negb (f e)) tr.

(** ** Definitions for the claims *)

Definition phase_query {cfg} (p : phase) : query cfg :=
  match p with
  | Prune => prune
  | Create => create
  | Sync => sync
  end.

Definition precondition_query {cfg} (c : precondition) : query cfg :=
  match c with
  | PhysExistInVpp => phys_exist_in_vpp
  | PhysExistInConfig => phys_exist_in_config
  | LcpsExistWithLcpEnabled => lcps_exist_with_lcp_enabled
  end.

(** The phases that come before a phase. *)
Definition earlier (p : phase) : list phase :=
  match p with
  | Prune => []
  | Create => [Prune]
  | Sync => [Prune; Create]
  end.

Definition all_succeeded (rs : list (phase * bool)) : bool :=
  forallb snd rs.

(** The exit codes of lines 272, 279 and 286, and of lines 256, 260 and
    266. *)
Definition planning_failure_code (p : phase) : Z :=
  match p with
  | Prune => -10
  | Create => -20
  | Sync => -30
  end.

Definition precondition_failure_code (c : precondition) : Z :=
  match c with
  | PhysExistInVpp => -4
  | PhysExistInConfig => -5
  | LcpsExistWithLcpEnabled => -6
  end.

(** The same command line with [--force] set or not. *)
Definition with_force (b : bool) (args : Namespace) : Namespace :=
  mkNamespace (debug args) (quiet args) b (command args).

(** Worlds and command lines to run the program on. *)
Definition world_of (a : query string -> bool) : world string :=
  mkWorld (fun _ q => a q) (fun _ _ => inr "interfaces: {}") (fun _ d => inr d).

Definition all_ok : world string := world_of (fun _ => true).

Definition plan_args (force_ novpp_ : bool) : Namespace :=
  mkNamespace false false force_
    (Some (cmd_plan None "vppcfg.yaml" novpp_ "-" None None)).

Definition apply_args : Namespace :=
  mkNamespace false false false (Some (cmd_apply None "vppcfg.yaml" None None)).

Definition check_args : Namespace :=
  mkNamespace false false false (Some (cmd_check None "vppcfg.yaml")).

Definition dump_args : Namespace :=
  mkNamespace false false false (Some (cmd_dump "-" None None)).

(** The call that follows the first call satisfying [f], if any. *)
Fixpoint next_after {cfg} (f : event cfg -> bool) (tr : list (event cfg))
  : option (event cfg) :=
  match tr with
  | [] => None
  | e :: tr' => if f e then hd_error tr' else next_after f tr'
  end.

Definition is_mockconfig {cfg} (e : event cfg) : bool :=
  match e with
  | EAsk (mockconfig _) _ => true
  | _ => false
  end.

(** C4 as stated, in two parts.  The run is on the --novpp path when
    [mockconfig] is called, and it queries a live snapshot when
    [readconfig] is called. *)
Definition novpp_goes_to_phases {cfg} (w : world cfg) (args : Namespace) : Prop :=
  (exists c, In (mockconfig c) (map fst (asks (trace_of w args)))) ->
  precondition_results (trace_of w args) = []
  /\ In Prune (phases_invoked (trace_of w args)).

Definition checks_iff_live_queried {cfg} (w : world cfg) (args : Namespace)
  : Prop :=
  precondition_results (trace_of w args) <> []
  <-> In readconfig (map fst (asks (trace_of w args))).

Definition mock_fails : world string :=
  world_of (fun q => match q with mockconfig _ => false | _ => true end).

Definition vpp_unreachable : world string :=
  world_of (fun q => match q with
                     | readconfig | dumper_readconfig => false
                     | _ => true
                     end).

(** The four categories of run failure, and the code [main] gives each
    (lines 241, 256, 260, 266, 272, 279, 286 and 295). *)
Inductive failure : Type :=
| validation_failure
| precondition_failure (c : precondition)
| planning_failure (p : phase)
| forced_partial_failure.

Definition exit_code (f : failure) : Z :=
  match f with
  | validation_failure => -2
  | precondition_failure c => precondition_failure_code c
  | planning_failure p => planning_failure_code p
  | forced_partial_failure => -40
  end.

(** What happened in a run that failed in the category [f]. *)
Definition failed_with {cfg} (w : world cfg) (args : Namespace) (f : failure)
  : Prop :=
  let tr := trace_of w args in
  match f with
  | validation_failure =>
      exists c, last_ask tr = Some (valid_config c, false)
  | precondition_failure c =>
      last_ask tr = Some (precondition_query c, false)
  | planning_failure p =>
      force args = false /\ last_ask tr = Some (phase_query p, false)
  | forced_partial_failure =>
      force args = true
      /\ phases_invoked tr = [Prune; Create; Sync]
      /\ all_succeeded (phase_results tr) = false
  end.

(** C10 as stated, the part on the exit code: -7 is the dump command's
    own, so a run that exits -7 is a dump run. *)
Definition dump_code_is_its_own (cfg : Type) : Prop :=
  forall (w : world cfg) (args : Namespace),
    outcome_of w args = Exited (-7) ->
    exists c, command args = Some c /\ is_dump c = true.

Definition rejecting : world string :=
  world_of (fun q => match q with valid_config _ => false | _ => true end).

Definition create_fails : world string :=
  world_of (fun q => match q with create => false | _ => true end).

(** ** Definitions for further properties *)

Definition is_error_log {cfg} (e : event cfg) : bool :=
  match e with
  | EDo (logging ERROR _) => true
  | _ => false
  end.

Definition is_warning_log {cfg} (e : event cfg) : bool :=
  match e with
  | EDo (logging WARNING _) => true
  | _ => false
  end.

Definition is_open {cfg} (e : event cfg) : bool :=
  match e with
  | EOpen _ _ => true
  | _ => false
  end.

Definition is_Reconciler {cfg} (e : event cfg) : bool :=
  match e with
  | EDo (Reconciler _ _) => true
  | _ => false
  end.

Definition is_reconciler_write {cfg} (e : event cfg) : bool :=
  match e with
  | EDo (reconciler_write _ _) => true
  | _ => false
  end.

(** The calls made before the first call satisfying [f]. *)
Fixpoint prefix_before {cfg} (f : event cfg -> bool) (tr : list (event cfg))
  : list (event cfg) :=
  match tr with
  | [] => []
  | e :: tr' => if f e then [] else e :: prefix_before f tr'
  end.

(** The precondition checks that come before a check. *)
Definition checks_before (c : precondition) : list precondition :=
  match c with
  | PhysExistInVpp => []
  | PhysExistInConfig => [PhysExistInVpp]
  | LcpsExistWithLcpEnabled => [PhysExistInVpp; PhysExistInConfig]
  end.

Definition failed_phases (rs : list (phase * bool)) : list (phase * bool) :=
  filter (fun r => negb (snd r)) rs.

(** A world in which the configuration file cannot be opened, and one in
    which it does not parse. *)
Definition unreadable : world string :=
  mkWorld (fun _ _ => true)
          (fun _ _ => inl "[Errno 2] No such file or directory")
          (fun _ d => inr d).

Definition malformed : world string :=
  mkWorld (fun _ _ => true)
          (fun _ _ => inr "interfaces: {")
          (fun _ _ => inl (parse_failed "expected the node content")).

(** A world in which the file opens but cannot be read. *)
Definition read_fails : world string :=
  mkWorld (fun _ _ => true)
          (fun _ _ => inr "")
          (fun _ _ => inl (read_failed "[Errno 5] Input/output error")).

(** What [parser.parse_args()] does at line 200: it returns the
    Namespace, or it ends the process itself, with status 2 after a
    usage error (an unknown command, a missing --config) and with
    status 0 after -h. *)
Inductive parse_result : Type :=
| parsed (args : Namespace)
| usage_error
| help_printed.

(** Lines 200-301: [main] with the parsing of the command line. *)
Definition process {cfg} (r : parse_result) : prog cfg unit :=
  match r with
  | parsed args => main args
  | usage_error => Exit 2
  | help_printed => Exit 0
  end.

Definition sync_fails : world string :=
  world_of (fun q => match q with sync => false | _ => true end).

(** The exit codes of [main], in source order of first use. *)
Definition main_codes : list Z :=
  [0; -7; -1; -2; -3; -4; -5; -6; -10; -20; -30; -40]%Z.

(** The exit codes of the program: the one of the usage error, then the
    ones of [main]. *)
Definition process_codes : list Z := 2%Z :: main_codes.

(** The same command line with other values of --debug and --quiet. *)
Definition with_verbosity (debug_ quiet_ : bool) (args : Namespace) : Namespace :=
  mkNamespace debug_ quiet_ (force args) (command args).

(** A world whose answers do not depend on the calls made before. *)
Definition history_blind {cfg} (w : world cfg) : Prop :=
  (forall h h' q, answer w h q = answer w h' q)
  /\ (forall h h' path, open_file w h path = open_file w h' path)
  /\ (forall h h' doc, yaml_load w h doc = yaml_load w h' doc).

(** The place of a call in the text of [main]; logging and printing have
    none. *)
Definition stage {cfg} (e : event cfg) : option nat :=
  match e with
  | EDo (basicConfig _) => Some 0
  | EDo (Dumper _) => Some 1
  | EAsk dumper_readconfig _ => Some 2
  | EDo (dumper_write _) => Some 3
  | EOpen _ _ => Some 4
  | ELoad _ _ => Some 5
  | EDo (Validator _) => Some 6
  | EAsk (valid_config _) _ => Some 7
  | EDo (Reconciler _ _) => Some 8
  | EAsk (mockconfig _) _ => Some 9
  | EAsk readconfig _ => Some 9
  | EAsk phys_exist_in_vpp _ => Some 10
  | EAsk phys_exist_in_config _ => Some 11
  | EAsk lcps_exist_with_lcp_enabled _ => Some 12
  | EAsk prune _ => Some 13
  | EAsk create _ => Some 14
  | EAsk sync _ => Some 15
  | EDo (reconciler_write _ _) => Some 16
  | EDo print_help | EDo (print _) | EDo (logging _ _) => None
  end.

Fixpoint stages {cfg} (tr : list (event cfg)) : list nat :=
  match tr with
  | [] => []
  | e :: tr' =>
      match stage e with
      | Some n => n :: stages tr'
      | None => stages tr'
      end
  end.

Fixpoint increasing (l : list nat) : bool :=
  match l with
  | [] => true
  | n :: l' =>
      match l' with
      | [] => true
      | m :: _ => Nat.ltb n m && increasing l'
      end
  end.

(** ** Exploring the runs of [main] *)

(** [main] is a finite tree: a statement about every run is settled by
    following each branch, asking the world one answer at a time. *)
Ltac next_answer w :=
  match goal with
  | |- context [answer w ?h ?q] => destruct (answer w h q) eqn:?
  | |- context [open_file w ?h ?p] => destruct (open_file w h p) eqn:?
  | |- context [yaml_load w ?h ?d] =>
      destruct (yaml_load w h d) as [[?err|?what]|?doc] eqn:?
  end.

Ltac unfold_main :=
  unfold trace_of, outcome_of, main, read_config, opt_kwargs_of, log, do_,
    ask, open_, load, sys_exit, when, getattr.

Ltac every_run w := unfold_main; cbn; repeat (next_answer w; cbn).

Ltac every_command args :=
  let d := fresh "debug_" in
  let q := fresh "quiet_" in
  let f := fresh "force_" in
  let c := fresh "c" in
  let n := fresh "novpp_" in
  destruct args as [d q f [c|]];
  [destruct c as [?schema ?config
                 |?outfile ?json_dir ?api_socket
                 |?schema ?config n ?outfile ?json_dir ?api_socket
                 |?schema ?config ?json_dir ?api_socket];
   [ | |destruct n| ]; destruct f
  |].

Ltac split_all := repeat match goal with |- _ /\ _ => split end.

(** Hypotheses about membership in a computed list. *)
Ltac in_cases :=
  repeat match goal with
  | H : False |- _ => contradiction
  | H : _ \/ _ |- _ => destruct H
  | H : _ /\ _ |- _ => destruct H
  | H : exists _, _ |- _ => destruct H
  | H : In _ [] |- _ => contradiction
  | H : _ = _ |- _ => discriminate H
  | H : ?x <> ?x |- _ => exfalso; apply H; reflexivity
  | H : (_, _) = (_, _) |- _ => inversion H; clear H; subst
  | H : Some _ = Some _ |- _ => inversion H; clear H; subst
  | H : EDo _ = _ |- _ => inversion H; clear H; subst
  | H : EAsk _ _ = _ |- _ => inversion H; clear H; subst
  | H : EOpen _ _ = _ |- _ => inversion H; clear H; subst
  | H : ELoad _ _ = _ |- _ => inversion H; clear H; subst
  end.

(** What is left of a statement once the run is known. *)
Ltac settle :=
  repeat first
    [ progress in_cases
    | match goal with
      | |- _ /\ _ => split
      | |- _ <-> _ => split
      | |- forall _, _ => intro
      | |- ~ _ => intro
      | |- _ <> _ => discriminate
      end ];
  try reflexivity; try (eexists; reflexivity); auto 12.

(** ** The embedding *)

(** Running [bind p f] is running [p] and then, when [p] returns, [f] on
    what it returned: [sys.exit] and an exception in [p] end the run. *)
Lemma run_bind {cfg A B} (w : world cfg) (p : prog cfg A) (f : A -> prog cfg B) :
  forall h,
    run w h (bind p f)
    = match run w h p with
      | (h', Returned a) => run w h' (f a)
      | (h', Exited code) => (h', Exited code)
      | (h', Raised e) => (h', Raised e)
      end.
Proof.
  induction p as [a|code|e|a k IH|q k IH|path k IH|doc k IH]; intros h; cbn;
    try reflexivity; auto.
Qed.

(** A run only adds calls to the history it starts from. *)
Lemma run_extends {cfg A} (w : world cfg) (p : prog cfg A) :
  forall h, exists tr, fst (run w h p) = h ++ tr.
Proof.
  induction p as [a|code|e|a k IH|q k IH|path k IH|doc k IH]; intros h; cbn;
    try (exists []; symmetry; apply app_nil_r).
  - destruct (IH (h ++ [EDo a])) as [tr Htr]. exists (EDo a :: tr).
    rewrite Htr, <- app_assoc. reflexivity.
  - destruct (IH (answer w h q) (h ++ [EAsk q (answer w h q)])) as [tr Htr].
    eexists. rewrite Htr, <- app_assoc. reflexivity.
  - destruct (IH (open_file w h path) (h ++ [EOpen path (open_file w h path)]))
      as [tr Htr].
    eexists. rewrite Htr, <- app_assoc. reflexivity.
  - destruct (IH (yaml_load w h doc) (h ++ [ELoad doc (yaml_load w h doc)]))
      as [tr Htr].
    eexists. rewrite Htr, <- app_assoc. reflexivity.
Qed.

(** [main] never falls off its end: every run ends in [sys.exit] or in an
    uncaught exception. *)
Lemma main_never_returns {cfg} (w : world cfg) (args : Namespace) :
  forall a, outcome_of w args <> Returned a.
Proof.
  intros a. every_command args; every_run w; discriminate.
Qed.

(** The exit codes of [main] are the ones of the source, and no other. *)
Lemma main_exit_codes {cfg} (w : world cfg) (args : Namespace) :
  forall code, outcome_of w args = Exited code ->
    In code [0; -1; -2; -3; -4; -5; -6; -7; -10; -20; -30; -40]%Z.
Proof.
  intros code. every_command args; every_run w; intros H;
    inversion H; subst; cbn; auto 15.
Qed.

(** The status seen by the shell: [sys.exit(-10)] ends the process with
    status 246, [sys.exit(-40)] with 216. *)
Example exit_status_of_codes :
  map exit_status [-2; -4; -5; -6; -10; -20; -30; -40]%Z
  = [254; 252; 251; 250; 246; 236; 226; 216]%Z.
Proof. reflexivity. Qed.

(** A plan run with --force in which create fails: sync is still
    invoked, the plan is written with emit_ok false, the exit code is
    -40. *)
Example forced_plan_run :
  calls (trace_of create_fails (plan_args true true))
  = [EDo (basicConfig INFO);
     EOpen "vppcfg.yaml" (inr "interfaces: {}");
     ELoad "interfaces: {}" (inr "interfaces: {}");
     EDo (Validator None);
     EAsk (valid_config "interfaces: {}") true;
     EDo (Reconciler "interfaces: {}" []);
     EAsk (mockconfig "interfaces: {}") true;
     EAsk prune true; EAsk create false; EAsk sync true;
     EDo (reconciler_write "-" false)]
  /\ outcome_of create_fails (plan_args true true) = Exited (-40).
Proof. split; reflexivity. Qed.

(** The same run without --force stops at create. *)
Example aborted_plan_run :
  asks (trace_of create_fails (plan_args false true))
  = [(valid_config "interfaces: {}", true);
     (mockconfig "interfaces: {}", true);
     (prune, true); (create, false)]
  /\ outcome_of create_fails (plan_args false true) = Exited (-20).
Proof. split; reflexivity. Qed.

(** * Claims *)

(** C1: in every run, the phases invoked are an initial segment of
    prune, create, sync, in that order: none is invoked twice, create is
    invoked only after prune, and sync only after prune and create. *)
Theorem phases_in_order {cfg} (w : world cfg) (args : Namespace) :
  let ps := phases_invoked (trace_of w args) in
  (exists rest, ps ++ rest = [Prune; Create; Sync])
  /\ NoDup ps
  /\ (In Create ps -> In Prune ps)
  /\ (In Sync ps -> In Create ps /\ In Prune ps).
Proof.
  every_command args; every_run w; split_all;
    try (eexists; reflexivity);
    try (repeat constructor; cbn; intuition discriminate);
    cbn; intuition discriminate.
Qed.

(** C2: a run that reaches the phases ends in one of three ways.  When
    every phase invoked succeeded, all three were invoked and the process
    exits 0.  When a phase failed and --force is not set, the failing
    phase is the last call tested, the phases before it succeeded, no
    later phase is invoked and the exit code is that phase's.  When a
    phase failed and --force is set, all three phases are invoked and the
    exit code is -40. *)
Theorem terminal_state {cfg} (w : world cfg) (args : Namespace) :
  phase_results (trace_of w args) <> [] ->
  let rs := phase_results (trace_of w args) in
  let out := outcome_of w args in
  (all_succeeded rs = true ->
     rs = [(Prune, true); (Create, true); (Sync, true)] /\ out = Exited 0)
  /\ (all_succeeded rs = false -> force args = false ->
        exists p,
          rs = map (fun q => (q, true)) (earlier p) ++ [(p, false)]
          /\ last_ask (trace_of w args) = Some (phase_query p, false)
          /\ out = Exited (planning_failure_code p))
  /\ (all_succeeded rs = false -> force args = true ->
        map fst rs = [Prune; Create; Sync] /\ out = Exited (-40)).
Proof.
  every_command args; every_run w; intros Hreached;
    try (exfalso; apply Hreached; reflexivity);
    split_all; intros; try discriminate; split_all; try reflexivity.
  all: first [ exists Prune; split_all; reflexivity
             | exists Create; split_all; reflexivity
             | exists Sync; split_all; reflexivity ].
Qed.

Lemma terminal_state_witness :
  phase_results (trace_of all_ok (plan_args false false)) <> []
  /\ outcome_of all_ok (plan_args false false) = Exited 0.
Proof.
  assert (H : phase_results (trace_of all_ok (plan_args false false)) <> [])
    by (vm_compute; discriminate).
  split; [exact H|].
  apply (terminal_state all_ok (plan_args false false) H).
  reflexivity.
Defined.

(** C3: when a precondition check fails, no phase is invoked: the failed
    check is the last call tested and the process exits with that check's
    code.  The run is the same with and without --force. *)
Theorem precondition_failure_aborts {cfg} (w : world cfg) (args : Namespace)
    (c : precondition) :
  In (c, false) (precondition_results (trace_of w args)) ->
  phases_invoked (trace_of w args) = []
  /\ last_ask (trace_of w args) = Some (precondition_query c, false)
  /\ outcome_of w args = Exited (precondition_failure_code c)
  /\ forall b, run w [] (main (with_force b args)) = run w [] (main args).
Proof.
  every_command args; every_run w; intros Hfail; in_cases.
  all: split_all; try reflexivity.
  all: intros b; unfold with_force; every_run w; reflexivity.
Qed.

Lemma precondition_failure_aborts_witness :
  let w := world_of (fun q => match q with phys_exist_in_config => false | _ => true end) in
  phases_invoked (trace_of w (plan_args true false)) = []
  /\ outcome_of w (plan_args true false) = Exited (-5).
Proof.
  intros w.
  assert (H : In (PhysExistInConfig, false)
                (precondition_results (trace_of w (plan_args true false))))
    by (vm_compute; auto).
  destruct (precondition_failure_aborts w (plan_args true false) _ H)
    as (Hp & _ & Ho & _).
  split; [exact Hp | exact Ho].
Defined.

(** C4, counterexample: with --novpp, when the mock snapshot cannot be
    built the process exits -7 and no phase is invoked; and when
    [readconfig] fails, a live snapshot was queried and no precondition
    check is executed. *)
Lemma novpp_mock_failure_reaches_no_phase :
  asks (trace_of mock_fails (plan_args false true))
  = [(valid_config "interfaces: {}", true); (mockconfig "interfaces: {}", false)]
  /\ phases_invoked (trace_of mock_fails (plan_args false true)) = []
  /\ outcome_of mock_fails (plan_args false true) = Exited (-7)
  /\ ~ novpp_goes_to_phases mock_fails (plan_args false true)
  /\ asks (trace_of vpp_unreachable (plan_args false false))
     = [(valid_config "interfaces: {}", true); (readconfig, false)]
  /\ outcome_of vpp_unreachable (plan_args false false) = Exited (-3)
  /\ ~ checks_iff_live_queried vpp_unreachable (plan_args false false).
Proof.
  split_all; try reflexivity.
  - intros H. destruct H as [_ H].
    + exists "interfaces: {}". vm_compute. auto.
    + vm_compute in H. exact H.
  - intros [_ H]. apply H; vm_compute; auto.
Qed.

(** C4, amended: precondition checks are executed exactly when
    [readconfig] was called and succeeded; when it fails the process
    exits -3 with no check and no phase.  On the --novpp path neither
    [readconfig] nor any check is called; when [mockconfig] succeeds the
    very next call is prune, and when it fails the process exits -7 with
    no phase.  The --novpp path is the one of the flag: once the document
    is accepted, [mockconfig] is called exactly when the command has
    --novpp set, and [readconfig] exactly when it has the flag unset. *)
Theorem checks_only_on_live_snapshot {cfg} (w : world cfg) (args : Namespace) :
  let tr := trace_of w args in
  (precondition_results tr <> [] <-> In (readconfig, true) (asks tr))
  /\ (In (readconfig, false) (asks tr) ->
        precondition_results tr = [] /\ phases_invoked tr = []
        /\ outcome_of w args = Exited (-3))
  /\ (forall c b, In (mockconfig c, b) (asks tr) ->
        precondition_results tr = []
        /\ ~ In readconfig (map fst (asks tr))
        /\ (b = true ->
              exists r, next_after is_mockconfig tr = Some (EAsk prune r))
        /\ (b = false ->
              phases_invoked tr = [] /\ outcome_of w args = Exited (-7)))
  /\ (forall doc,
        (exists b, In (mockconfig doc, b) (asks tr))
        <-> (exists c, command args = Some c /\ attr_novpp c = Some true)
            /\ In (valid_config doc, true) (asks tr))
  /\ (In readconfig (map fst (asks tr))
      <-> (exists c, command args = Some c /\ attr_novpp c = Some false)
          /\ exists doc, In (valid_config doc, true) (asks tr))
  /\ (forall c, command args = Some c -> attr_novpp c = Some true ->
        precondition_results tr = [] /\ ~ In readconfig (map fst (asks tr))).
Proof.
  every_command args; every_run w; settle.
  all: try (eexists; split; reflexivity).
  all: try (eexists; cbn; auto 8; fail).
Qed.

(** C5: when the Validator rejects the document, the rejected
    validation is the last call tested and the process exits -2: no
    Reconciler is built, nothing is asked of the dataplane, no phase runs
    and no plan is written.  The run is the same with and without
    --force. *)
Theorem invalid_document_aborts {cfg} (w : world cfg) (args : Namespace)
    (c : cfg) :
  In (valid_config c, false) (asks (trace_of w args)) ->
  outcome_of w args = Exited (-2)
  /\ last_ask (trace_of w args) = Some (valid_config c, false)
  /\ none_of on_reconciler (trace_of w args) = true
  /\ none_of on_dataplane (trace_of w args) = true
  /\ phases_invoked (trace_of w args) = []
  /\ forall b, run w [] (main (with_force b args)) = run w [] (main args).
Proof.
  every_command args; every_run w; intros Hbad; in_cases.
  all: split_all; try reflexivity.
  all: intros b; unfold with_force; every_run w; reflexivity.
Qed.

Lemma invalid_document_aborts_witness :
  outcome_of rejecting check_args = Exited (-2)
  /\ outcome_of rejecting (plan_args true false) = Exited (-2)
  /\ outcome_of rejecting apply_args = Exited (-2).
Proof.
  split_all.
  - apply (invalid_document_aborts rejecting check_args "interfaces: {}").
    vm_compute; auto.
  - apply (invalid_document_aborts rejecting (plan_args true false)
             "interfaces: {}").
    vm_compute; auto.
  - apply (invalid_document_aborts rejecting apply_args "interfaces: {}").
    vm_compute; auto.
Defined.

Lemma exit_code_inj (f g : failure) : exit_code f = exit_code g -> f = g.
Proof.
  destruct f as [|[]|[]|], g as [|[]|[]|]; cbn;
    intros H; try reflexivity; discriminate H.
Qed.

Lemma exit_status_inj (f g : failure) :
  exit_status (exit_code f) = exit_status (exit_code g) -> f = g.
Proof.
  destruct f as [|[]|[]|], g as [|[]|[]|]; cbn;
    intros H; try reflexivity; discriminate H.
Qed.

(** C6: the codes of the four failure categories are pairwise distinct,
    also as the exit status the operating system reports, and a run exits
    with the code of a category (of a check, of a phase) exactly when it
    failed in that category (at that check, at that phase). *)
Theorem exit_code_tells_failure {cfg} (w : world cfg) (args : Namespace) :
  (forall f g, exit_code f = exit_code g -> f = g)
  /\ (forall f g, exit_status (exit_code f) = exit_status (exit_code g) -> f = g)
  /\ (forall f, outcome_of w args = Exited (exit_code f) <-> failed_with w args f).
Proof.
  split; [exact exit_code_inj|]. split; [exact exit_status_inj|].
  intros f. unfold failed_with.
  every_command args; every_run w; destruct f as [|[]|[]|]; cbn; settle.
Qed.

(** C7: when [main] writes the plan, the command is plan, all three
    phases were invoked, and emit_ok is true exactly when all three
    succeeded: a failed phase gives emit_ok false.  With --force, a plan
    run that reaches the phases always writes the plan. *)
Theorem emit_ok_iff_all_succeeded {cfg} (w : world cfg) (args : Namespace) :
  let tr := trace_of w args in
  (forall outfile emit_ok, In (EDo (reconciler_write outfile emit_ok)) tr ->
     (exists c, command args = Some c /\ is_plan c = true
                /\ attr_outfile c = Some outfile)
     /\ phases_invoked tr = [Prune; Create; Sync]
     /\ (emit_ok = true <->
           phase_results tr = [(Prune, true); (Create, true); (Sync, true)])
     /\ (forall p, In (p, false) (phase_results tr) -> emit_ok = false))
  /\ (forall c, command args = Some c -> is_plan c = true ->
      force args = true -> phase_results tr <> [] ->
      exists outfile,
        In (EDo (reconciler_write outfile (all_succeeded (phase_results tr)))) tr).
Proof.
  every_command args; every_run w; settle.
  all: eexists; cbn; auto 25.
Qed.

Lemma emit_ok_iff_all_succeeded_witness :
  In (EDo (reconciler_write "-" false)) (trace_of create_fails (plan_args true true))
  /\ In (EDo (reconciler_write "-" true)) (trace_of all_ok (plan_args false false))
  /\ phases_invoked (trace_of create_fails (plan_args true true))
     = [Prune; Create; Sync].
Proof.
  assert (H : In (EDo (reconciler_write "-" false))
                (trace_of create_fails (plan_args true true)))
    by (vm_compute; auto 25).
  split_all; [exact H | vm_compute; auto 25 | ].
  apply (proj1 (emit_ok_iff_all_succeeded create_fails (plan_args true true))
           "-" false H).
Defined.

(** C8: a check run never builds a Reconciler and never contacts the
    dataplane, and once the document is validated the verdict decides the
    exit code: 0 for a valid document, -2 for an invalid one.  The
    validation is the last call of the run, logging aside. *)
Theorem check_returns_verdict {cfg} (w : world cfg) (debug_ quiet_ force_ : bool)
    (schema : option string) (config : string) :
  let args := mkNamespace debug_ quiet_ force_ (Some (cmd_check schema config)) in
  let tr := trace_of w args in
  none_of on_reconciler tr = true
  /\ none_of on_dataplane tr = true
  /\ phases_invoked tr = []
  /\ (forall c verdict, In (valid_config c, verdict) (asks tr) ->
        outcome_of w args = Exited (if verdict then 0 else -2)
        /\ last (calls tr) (EDo print_help) = EAsk (valid_config c) verdict).
Proof.
  every_run w; settle.
Qed.

Lemma check_returns_verdict_witness :
  outcome_of all_ok check_args = Exited 0
  /\ outcome_of rejecting check_args = Exited (-2).
Proof.
  split.
  - destruct (check_returns_verdict all_ok false false false None "vppcfg.yaml")
      as (_ & _ & _ & H).
    apply (H "interfaces: {}" true). vm_compute; auto.
  - destruct (check_returns_verdict rejecting false false false None "vppcfg.yaml")
      as (_ & _ & _ & H).
    apply (H "interfaces: {}" false). vm_compute; auto.
Defined.

(** C9, on the code: an apply run replays nothing.  [main] has no call
    that executes a directive; and an apply run does not even reach the
    phases: the apply sub-parser declares no --novpp, so for a valid
    document the run ends at [args.novpp] with AttributeError, right
    after the Reconciler is built.  No apply run exits 0. *)
Theorem apply_replays_nothing {cfg} (w : world cfg) (debug_ quiet_ force_ : bool)
    (schema : option string) (config : string)
    (vpp_json_dir vpp_api_socket : option string) :
  let c := cmd_apply schema config vpp_json_dir vpp_api_socket in
  let args := mkNamespace debug_ quiet_ force_ (Some c) in
  let tr := trace_of w args in
  phases_invoked tr = []
  /\ precondition_results tr = []
  /\ none_of on_dataplane tr = true
  /\ outcome_of w args <> Exited 0
  /\ (forall doc, In (valid_config doc, true) (asks tr) ->
        outcome_of w args = Raised (AttributeError "novpp")
        /\ last (calls tr) (EDo print_help)
           = EDo (Reconciler doc (opt_kwargs_of c))).
Proof.
  every_run w; settle.
Qed.

(** The apply run of a valid document, call by call. *)
Example apply_run :
  run all_ok [] (main apply_args)
  = ([EDo (basicConfig INFO);
      EOpen "vppcfg.yaml" (inr "interfaces: {}");
      EDo (logging INFO (text "Loading configfile vppcfg.yaml"));
      ELoad "interfaces: {}" (inr "interfaces: {}");
      EDo (logging DEBUG (text_cfg "Config: " "interfaces: {}"));
      EDo (Validator None);
      EAsk (valid_config "interfaces: {}") true;
      EDo (logging INFO (text "Configuration is valid"));
      EDo (Reconciler "interfaces: {}" [])],
     Raised (AttributeError "novpp")).
Proof. reflexivity. Qed.

(** C10, counterexample: a plan run with --novpp exits -7 as well, when
    the mock snapshot cannot be built (line 249), like the dump run that
    cannot read the dataplane (line 225). *)
Lemma plan_novpp_exits_like_dump :
  outcome_of vpp_unreachable dump_args = Exited (-7)
  /\ outcome_of mock_fails (plan_args false true) = Exited (-7)
  /\ ~ dump_code_is_its_own string.
Proof.
  split_all; try reflexivity.
  intros H.
  destruct (H mock_fails (plan_args false true) eq_refl) as (c & Hc & Hd).
  inversion Hc; subst c. discriminate Hd.
Qed.

(** C10, amended: a dump run never opens or parses the configuration
    file and never calls the Validator.  It builds the Dumper and reads
    the live state: on success it writes the state to the output and
    exits 0, on failure it exits -7.  The run is the same in any two
    worlds whose Dumper answers alike, whatever the configuration file
    holds.  The code -7 is none of the codes of a run that ends at the
    document (unreadable -1, invalid -2); it is shared with the plan run
    whose mock snapshot cannot be built, and with no other run. *)
Theorem dump_ignores_document {cfg} (w : world cfg) (debug_ quiet_ force_ : bool)
    (outfile : string) (vpp_json_dir vpp_api_socket : option string) :
  let c := cmd_dump outfile vpp_json_dir vpp_api_socket in
  let args := mkNamespace debug_ quiet_ force_ (Some c) in
  let tr := trace_of w args in
  let level := if quiet_ then WARNING else if debug_ then DEBUG else INFO in
  let start := [EDo (basicConfig level); EDo (Dumper (opt_kwargs_of c))] in
  let ok := answer w start dumper_readconfig in
  none_of on_document tr = true
  /\ calls tr = start ++ [EAsk dumper_readconfig ok]
                ++ (if ok then [EDo (dumper_write outfile)] else [])
  /\ outcome_of w args = Exited (if ok then 0 else -7)
  /\ (forall w' : world cfg,
        (forall h, answer w' h dumper_readconfig = answer w h dumper_readconfig) ->
        run w' [] (main args) = run w [] (main args))
  /\ (forall (w' : world cfg) args',
        outcome_of w' args' = Exited (-7) ->
        last_ask (trace_of w' args') = Some (dumper_readconfig, false)
        \/ exists doc, last_ask (trace_of w' args') = Some (mockconfig doc, false)).
Proof.
  cbn zeta. split_all.
  - every_run w; reflexivity.
  - every_run w; destruct quiet_, debug_; reflexivity.
  - every_run w; destruct quiet_, debug_; cbn in *; congruence.
  - intros w' Hsame. unfold_main; cbn. rewrite Hsame.
    destruct (answer w _ _); reflexivity.
  - intros w' args'. every_command args'; every_run w'; settle.
    all: right; eexists; reflexivity.
Qed.

(** * Further properties of [main] *)

(** X1: a run that exits 0 saw no failure at all: every call it tested
    returned true, it logged no error and no warning, and every plan it
    wrote has emit_ok true.  For the plan command, exit 0 means that all
    three phases succeeded and the plan was written. *)
Theorem exit_zero_means_no_failure {cfg} (w : world cfg) (args : Namespace) :
  outcome_of w args = Exited 0 ->
  let tr := trace_of w args in
  (forall q, ~ In (q, false) (asks tr))
  /\ none_of is_error_log tr = true
  /\ none_of is_warning_log tr = true
  /\ (forall outfile emit_ok,
        In (EDo (reconciler_write outfile emit_ok)) tr -> emit_ok = true)
  /\ (forall c, command args = Some c -> is_plan c = true ->
        phase_results tr = [(Prune, true); (Create, true); (Sync, true)]
        /\ exists outfile, In (EDo (reconciler_write outfile true)) tr).
Proof.
  every_command args; every_run w; intros Hzero; try discriminate Hzero;
    settle.
  all: eexists; cbn; auto 25.
Qed.

Lemma exit_zero_means_no_failure_witness :
  phase_results (trace_of all_ok (plan_args true false))
  = [(Prune, true); (Create, true); (Sync, true)].
Proof.
  assert (H : outcome_of all_ok (plan_args true false) = Exited 0)
    by reflexivity.
  destruct (exit_zero_means_no_failure all_ok (plan_args true false) H)
    as (_ & _ & _ & _ & Hplan).
  apply (Hplan _ eq_refl eq_refl).
Defined.

(** X2: when the configuration file cannot be opened the run logs the
    path and the error and exits -1.  Nothing else happened: the file is
    the command's --config, nothing was parsed, no Validator and no
    Reconciler was built, no call was tested. *)
Theorem unreadable_config_exits_1 {cfg} (w : world cfg) (args : Namespace)
    (path err : string) :
  In (EOpen path (inl err)) (trace_of w args) ->
  let tr := trace_of w args in
  outcome_of w args = Exited (-1)
  /\ (exists c, command args = Some c /\ attr_config c = Some path)
  /\ (exists lvl, calls tr = [EDo (basicConfig lvl); EOpen path (inl err)])
  /\ last tr (EDo print_help)
     = EDo (logging ERROR
              (text ("Couldn't read config from " ++ path ++ ": " ++ err))).
Proof.
  every_command args; every_run w; intros Hopen; in_cases; settle.
  all: eexists; split; reflexivity.
Qed.

Lemma unreadable_config_exits_1_witness :
  outcome_of unreadable check_args = Exited (-1)
  /\ outcome_of unreadable (plan_args true true) = Exited (-1)
  /\ outcome_of unreadable apply_args = Exited (-1).
Proof.
  split_all.
  - apply (unreadable_config_exits_1 unreadable check_args "vppcfg.yaml"
             "[Errno 2] No such file or directory").
    vm_compute; auto.
  - apply (unreadable_config_exits_1 unreadable (plan_args true true)
             "vppcfg.yaml" "[Errno 2] No such file or directory").
    vm_compute; auto.
  - apply (unreadable_config_exits_1 unreadable apply_args "vppcfg.yaml"
             "[Errno 2] No such file or directory").
    vm_compute; auto.
Defined.

(** X3: what happens when [yaml.load] raises.  An OSError is caught
    like the one of [open]: the run logs the path and the error and exits
    -1.  Any other exception leaves [main]: the run does not end in
    [sys.exit] and logs no error.  Either way no call was tested and no
    Validator or Reconciler is built. *)
Theorem parse_error_leaves_main {cfg} (w : world cfg) (args : Namespace)
    (doc : string) (e : load_error) :
  In (ELoad doc (inl e)) (trace_of w args) ->
  let tr := trace_of w args in
  asks tr = []
  /\ none_of on_reconciler tr = true
  /\ (forall schema, ~ In (EDo (Validator schema)) tr)
  /\ match e with
     | read_failed err =>
         outcome_of w args = Exited (-1)
         /\ exists path,
              (exists c, command args = Some c /\ attr_config c = Some path)
              /\ last tr (EDo print_help)
                 = EDo (logging ERROR
                          (text ("Couldn't read config from " ++ path
                                 ++ ": " ++ err)))
     | parse_failed what =>
         outcome_of w args = Raised (YAMLError what)
         /\ last tr (EDo print_help) = ELoad doc (inl (parse_failed what))
         /\ none_of is_error_log tr = true
     end.
Proof.
  every_command args; every_run w; intros Hload; in_cases; settle.
  all: eexists; split; [eexists; split; reflexivity | reflexivity].
Qed.

Lemma parse_error_leaves_main_witness :
  outcome_of malformed check_args = Raised (YAMLError "expected the node content")
  /\ outcome_of read_fails check_args = Exited (-1).
Proof.
  split.
  - apply (parse_error_leaves_main malformed check_args "interfaces: {"
             (parse_failed "expected the node content")).
    vm_compute; auto.
  - apply (parse_error_leaves_main read_fails check_args ""
             (read_failed "[Errno 5] Input/output error")).
    vm_compute; auto.
Defined.

(** X4: the precondition checks run in the order phys_exist_in_vpp,
    phys_exist_in_config, lcps_exist_with_lcp_enabled.  A check is
    invoked only after the checks before it passed, and a failed check is
    the last one invoked.  A run on a live snapshot reaches the phases
    only after all three passed. *)
Theorem precondition_checks_in_order {cfg} (w : world cfg) (args : Namespace) :
  let tr := trace_of w args in
  let cs := precondition_results tr in
  (cs = []
   \/ cs = [(PhysExistInVpp, true); (PhysExistInConfig, true);
            (LcpsExistWithLcpEnabled, true)]
   \/ exists c, cs = map (fun d => (d, true)) (checks_before c) ++ [(c, false)])
  /\ (In (readconfig, true) (asks tr) -> phase_results tr <> [] ->
        cs = [(PhysExistInVpp, true); (PhysExistInConfig, true);
              (LcpsExistWithLcpEnabled, true)]).
Proof.
  every_command args; every_run w; settle.
  all: right; right;
    first [ exists PhysExistInVpp; reflexivity
          | exists PhysExistInConfig; reflexivity
          | exists LcpsExistWithLcpEnabled; reflexivity ].
Qed.

(** X5: a Reconciler is only built from a document that was parsed from
    the configuration file and accepted by the Validator before any call
    on the Reconciler; it receives the keyword arguments of the command
    line, and a mock snapshot is built from the same document. *)
Theorem reconciler_gets_validated_document {cfg} (w : world cfg)
    (args : Namespace) (doc : cfg) (kw : kwargs) :
  In (EDo (Reconciler doc kw)) (trace_of w args) ->
  let tr := trace_of w args in
  In (EAsk (valid_config doc) true) (prefix_before on_reconciler tr)
  /\ (exists path content,
        In (EOpen path (inr content)) (prefix_before on_reconciler tr)
        /\ In (ELoad content (inr doc)) (prefix_before on_reconciler tr))
  /\ (exists c, command args = Some c /\ kw = opt_kwargs_of c)
  /\ (forall doc' r, In (mockconfig doc', r) (asks tr) -> doc' = doc)
  /\ (forall doc' r, In (valid_config doc', r) (asks tr) -> doc' = doc).
Proof.
  every_command args; every_run w; intros Hnew; in_cases; settle.
  all: try (eexists; eexists; split; cbn; auto 12).
  all: eexists; split; reflexivity.
Qed.

Lemma reconciler_gets_validated_document_witness :
  In (EAsk (valid_config "interfaces: {}") true)
     (prefix_before on_reconciler (trace_of all_ok (plan_args false true))).
Proof.
  apply (reconciler_gets_validated_document all_ok (plan_args false true)
           "interfaces: {}" []).
  vm_compute; auto 12.
Defined.

(** X6: no call is repeated in a run: each tested call is made at most
    once, the configuration file is opened at most once, at most one
    Reconciler is built and at most one plan is written.  A run never
    asks for both a live and a mock snapshot. *)
Theorem no_call_repeated {cfg} (w : world cfg) (args : Namespace) :
  let tr := trace_of w args in
  NoDup (map fst (asks tr))
  /\ (List.length (filter is_open tr) <= 1)%nat
  /\ (List.length (filter is_Reconciler tr) <= 1)%nat
  /\ (List.length (filter is_reconciler_write tr) <= 1)%nat
  /\ (In readconfig (map fst (asks tr)) ->
      forall doc, ~ In (mockconfig doc) (map fst (asks tr))).
Proof.
  every_command args; every_run w; split_all;
    try (repeat constructor; cbn; intuition discriminate);
    settle.
Qed.

(** X7: --force changes a run only when a phase fails: when every phase
    that was invoked succeeded (or none was invoked), the run with the
    flag and the run without it make the same calls and end alike. *)
Theorem force_matters_only_on_phase_failure {cfg} (w : world cfg)
    (args : Namespace) :
  all_succeeded (phase_results (trace_of w args)) = true ->
  forall b, run w [] (main (with_force b args)) = run w [] (main args).
Proof.
  every_command args; every_run w; intros Hok; try discriminate Hok;
    intros b; unfold with_force; every_run w; reflexivity.
Qed.

Lemma force_matters_only_on_phase_failure_witness :
  run all_ok [] (main (plan_args true false))
  = run all_ok [] (main (plan_args false false)).
Proof.
  apply (force_matters_only_on_phase_failure all_ok (plan_args false false)
           eq_refl true).
Defined.

(** X8: what --force does to the exit code.  With the flag no run exits
    with a phase's code (-10, -20, -30); without it no run exits -40.  In
    the same world, the run that aborts at a phase without the flag is
    the run that exits -40 with it, and conversely. *)
Theorem force_turns_abort_into_forced_failure {cfg} (w : world cfg)
    (args : Namespace) :
  (force args = true ->
     forall p, outcome_of w args <> Exited (planning_failure_code p))
  /\ (force args = false -> outcome_of w args <> Exited (-40))
  /\ ((exists p, outcome_of w (with_force false args)
                 = Exited (planning_failure_code p))
      <-> outcome_of w (with_force true args) = Exited (-40)).
Proof.
  unfold with_force.
  every_command args; every_run w; settle.
  all: try (repeat match goal with p : phase |- _ => destruct p end;
            cbn in *; in_cases; fail).
  all: first [ exists Prune; reflexivity
             | exists Create; reflexivity
             | exists Sync; reflexivity ].
Qed.

(** X9: a failing exit is announced by an error log, which is then the
    last call of the run, in all cases but two: when the Reconciler
    cannot read the live snapshot (exit -3) and when it cannot build the
    mock snapshot (exit -7), [main] logs no error at all. *)
Theorem failing_exits_are_logged {cfg} (w : world cfg) (args : Namespace)
    (code : Z) :
  outcome_of w args = Exited code -> code <> 0%Z ->
  let tr := trace_of w args in
  (exists m, last tr (EDo print_help) = EDo (logging ERROR m))
  \/ (none_of is_error_log tr = true
      /\ ((code = (-3)%Z /\ last_ask tr = Some (readconfig, false))
          \/ (code = (-7)%Z
              /\ exists doc, last_ask tr = Some (mockconfig doc, false)))).
Proof.
  every_command args; every_run w; intros Hout Hcode;
    inversion Hout; subst code; try (exfalso; apply Hcode; reflexivity).
  all: try (left; eexists; reflexivity).
  all: right; split; [reflexivity|].
  all: first [ left; split; reflexivity
             | right; split; [reflexivity | eexists; reflexivity] ].
Qed.

Lemma failing_exits_are_logged_witness :
  none_of is_error_log (trace_of vpp_unreachable (plan_args false false)) = true
  /\ exists m, last (trace_of vpp_unreachable dump_args) (EDo print_help)
               = EDo (logging ERROR m).
Proof.
  split.
  - reflexivity.
  - destruct (failing_exits_are_logged vpp_unreachable dump_args (-7) eq_refl)
      as [H | [_ [[H _] | [_ [doc H]]]]].
    + discriminate.
    + exact H.
    + discriminate H.
    + discriminate H.
Defined.

(** X10: warnings are logged only under --force, one for each phase that
    failed. *)
Theorem one_warning_per_failed_phase {cfg} (w : world cfg) (args : Namespace) :
  let tr := trace_of w args in
  (force args = false -> none_of is_warning_log tr = true)
  /\ (force args = true ->
      List.length (filter is_warning_log tr)
      = List.length (failed_phases (phase_results tr))).
Proof.
  every_command args; every_run w; settle.
Qed.

(** X11: the Dumper and the Reconciler are built with the keyword
    arguments of the command line: the key vpp_json_dir (vpp_api_socket)
    is passed exactly when the option was given, with the value given,
    and no key is passed twice. *)
Theorem collaborators_get_given_options {cfg} (w : world cfg)
    (args : Namespace) (kw : kwargs) :
  In (EDo (Dumper kw)) (trace_of w args)
  \/ (exists doc, In (EDo (Reconciler doc kw)) (trace_of w args)) ->
  exists c, command args = Some c
    /\ (forall k v, In (k, v) kw <->
          (k = "vpp_json_dir" /\ attr_vpp_json_dir c = Some (Some v))
          \/ (k = "vpp_api_socket" /\ attr_vpp_api_socket c = Some (Some v)))
    /\ NoDup (map fst kw).
Proof.
  every_command args; every_run w; intros Hkw; in_cases.
  all: eexists; split; [reflexivity|].
  all: repeat match goal with o : option string |- _ => destruct o end; cbn.
  all: split; [|repeat constructor; cbn; intuition discriminate].
  all: intros k v; split; intros H; in_cases; subst; auto.
Qed.

Lemma collaborators_get_given_options_witness :
  let args := mkNamespace false false false
                (Some (cmd_dump "-" None (Some "/run/vpp/api.sock"))) in
  exists c, command args = Some c
    /\ (forall k v, In (k, v) [("vpp_api_socket", "/run/vpp/api.sock")] <->
          (k = "vpp_json_dir" /\ attr_vpp_json_dir c = Some (Some v))
          \/ (k = "vpp_api_socket" /\ attr_vpp_api_socket c = Some (Some v)))
    /\ NoDup (map fst [("vpp_api_socket", "/run/vpp/api.sock")]).
Proof.
  intros args.
  apply (collaborators_get_given_options all_ok args).
  left. vm_compute. auto.
Defined.

(** X12: when the plan is written, writing it is the last call of the
    run, logging aside, and it is written once.  The exit code agrees
    with emit_ok: 0 when it is true, -40 when it is false.  Without
    --force no plan is written with emit_ok false. *)
Theorem plan_is_written_last {cfg} (w : world cfg) (args : Namespace)
    (outfile : string) (emit_ok : bool) :
  In (EDo (reconciler_write outfile emit_ok)) (trace_of w args) ->
  let tr := trace_of w args in
  last (calls tr) (EDo print_help) = EDo (reconciler_write outfile emit_ok)
  /\ List.length (filter is_reconciler_write tr) = 1%nat
  /\ outcome_of w args = Exited (if emit_ok then 0 else -40)
  /\ (force args = false -> emit_ok = true).
Proof.
  every_command args; every_run w; intros Hwritten; in_cases; settle.
Qed.

Lemma plan_is_written_last_witness :
  outcome_of sync_fails (plan_args true false) = Exited (-40).
Proof.
  apply (plan_is_written_last sync_fails (plan_args true false) "-" false).
  vm_compute. auto 25.
Defined.

(** X13: how the program can end, the parsing of the command line
    included.  It never falls off the end of [main].  It leaves through
    [sys.exit] with the code 2 of a usage error or with one of the twelve
    codes of [main], and the status the shell sees is 0 only for code 0.
    It raises AttributeError only for the apply command, on the
    attribute novpp, after the document was accepted; the only other
    exception is the one [yaml.load] raised. *)
Theorem how_a_run_ends {cfg} (w : world cfg) (r : parse_result) :
  match run w [] (process r) with
  | (_, Returned _) => False
  | (_, Exited code) =>
      In code process_codes
      /\ (exit_status code = 0%Z <-> code = 0%Z)
      /\ (code = 2%Z <-> r = usage_error)
  | (tr, Raised (AttributeError name)) =>
      name = "novpp"
      /\ (exists args c, r = parsed args /\ command args = Some c
                         /\ is_apply c = true)
      /\ exists doc, last_ask tr = Some (valid_config doc, true)
  | (tr, Raised (YAMLError what)) =>
      exists doc, last tr (EDo print_help) = ELoad doc (inl (parse_failed what))
  end.
Proof.
  destruct r as [args| |]; unfold process, process_codes, main_codes;
    [every_command args; every_run w| |]; cbn; settle.
  all: try (cbn; auto 15; fail).
  all: try (eexists; eexists; split_all; reflexivity).
Qed.

(** X14: the configuration file is opened exactly for the commands
    check, plan and apply, and the file opened is the one given with
    --config; the dump command and a command line without a command
    open no file. *)
Theorem config_file_opened_iff {cfg} (w : world cfg) (args : Namespace) :
  let tr := trace_of w args in
  ((exists path r, In (EOpen path r) tr)
   <-> exists c, command args = Some c /\ is_dump c = false)
  /\ (forall path r, In (EOpen path r) tr ->
        exists c, command args = Some c /\ attr_config c = Some path).
Proof.
  every_command args; every_run w; settle.
  all: try (eexists; split; reflexivity).
  all: try (eexists; eexists; cbn; auto 25; fail).
Qed.

(** X15: --debug and --quiet only choose the logging level, --quiet
    winning over --debug: the first call of a command is basicConfig
    with that level, and in a world that answers regardless of the calls
    made before, the rest of the run and its outcome are the same for
    all values of the two flags. *)
Theorem verbosity_only_sets_level {cfg} (w : world cfg) (args : Namespace) :
  history_blind w ->
  forall debug_ quiet_,
    let args' := with_verbosity debug_ quiet_ args in
    tl (trace_of w args') = tl (trace_of w args)
    /\ outcome_of w args' = outcome_of w args
    /\ (command args <> None ->
        hd_error (trace_of w args')
        = Some (EDo (basicConfig
                       (if quiet_ then WARNING
                        else if debug_ then DEBUG else INFO)))).
Proof.
  intros (Ha & Ho & Hy) d q. unfold with_verbosity.
  every_command args; unfold_main; cbn;
    repeat (repeat match goal with
            | |- context [answer w (?e :: ?h) ?x] =>
                rewrite (Ha (e :: h) [] x)
            | |- context [open_file w (?e :: ?h) ?x] =>
                rewrite (Ho (e :: h) [] x)
            | |- context [yaml_load w (?e :: ?h) ?x] =>
                rewrite (Hy (e :: h) [] x)
            end;
            next_answer w; cbn);
    settle.
Qed.

Lemma verbosity_only_sets_level_witness :
  outcome_of create_fails (mkNamespace true true false
                             (Some (cmd_plan None "vppcfg.yaml" true "-" None None)))
  = Exited (-20).
Proof.
  assert (H : history_blind create_fails)
    by (unfold history_blind; split_all; intros; reflexivity).
  destruct (verbosity_only_sets_level create_fails (plan_args false true) H
              true true) as (_ & Ho & _).
  exact Ho.
Defined.

(** X16: the calls of a run follow the text of [main]: whatever the
    collaborators answer, the calls made are in source order, none comes
    back and none is made twice (logging aside). *)
Theorem calls_follow_the_stages {cfg} (w : world cfg) (args : Namespace) :
  increasing (stages (trace_of w args)) = true.
Proof.
  every_command args; every_run w; reflexivity.
Qed.

(** X17: what the Validator is given: it is built with the --schema of
    the command line and validates the document parsed from the file
    given with --config, and these are the first calls of the run. *)
Theorem validator_sees_loaded_document {cfg} (w : world cfg)
    (args : Namespace) (doc : cfg) (verdict : bool) :
  In (valid_config doc, verdict) (asks (trace_of w args)) ->
  exists c schema path content lvl,
    command args = Some c
    /\ attr_schema c = Some schema
    /\ attr_config c = Some path
    /\ firstn 5 (calls (trace_of w args))
       = [EDo (basicConfig lvl); EOpen path (inr content);
          ELoad content (inr doc); EDo (Validator schema);
          EAsk (valid_config doc) verdict].
Proof.
  every_command args; every_run w; intros Hv; in_cases.
  all: do 5 eexists; split_all; reflexivity.
Qed.

Lemma validator_sees_loaded_document_witness :
  exists c schema path content lvl,
    command check_args = Some c
    /\ attr_schema c = Some schema
    /\ attr_config c = Some path
    /\ firstn 5 (calls (trace_of rejecting check_args))
       = [EDo (basicConfig lvl); EOpen path (inr content);
          ELoad content (inr "interfaces: {}"); EDo (Validator schema);
          EAsk (valid_config "interfaces: {}") false].
Proof.
  apply (validator_sees_loaded_document rejecting check_args
           "interfaces: {}" false).
  vm_compute. auto.
Defined.
